(** * BrainyDocs backend: the chat endpoint of [Backend/Retrieval.py]

    A shallow embedding of the FastAPI module [Backend/Retrieval.py]: the
    three route handlers ([chat_endpoint], [reset_memory], [root]), the
    module-level configuration, and the Python library functions the handlers
    call on strings ([str.strip], [os.path.basename]).

    Python values are modelled with the types the handlers use them at:
    a [str] is a list of Unicode code points, a dict with string keys is a
    [gmap string _], the conversation buffer [memory.chat_memory.messages]
    is a list of messages held in the process state.  The metadata of a
    retrieved chunk comes from stored documents and may hold values that are
    not strings, on which [os.path.basename] raises.  A handler is a state
    transformer that either returns a value or raises, and the state it
    leaves behind survives the exception, as in Python. *)

From Stdlib Require Import ZArith NArith Ascii String List Lia.
From stdpp Require Import gmap strings list fin_maps.

Local Open Scope Z_scope.

(** ** Python strings *)

(** A Python [str]: a sequence of Unicode code points. *)
Abbreviation str := (list N).

(** An ASCII literal of the source as a [str]. *)
Definition py (s : string) : str :=
  map N_of_ascii (list_ascii_of_string s).

(** [str.isspace] on one code point: CPython's [_PyUnicode_IsWhitespace]. *)
Definition isspace (c : N) : bool :=
  ((9 <=? c) && (c <=? 13)            (* \t \n \v \f \r *)
   || (28 <=? c) && (c <=? 32)        (* FS GS RS US and space *)
   || (c =? 133) || (c =? 160)        (* NEL, no-break space *)
   || (c =? 5760)                     (* U+1680 *)
   || (8192 <=? c) && (c <=? 8202)    (* U+2000 .. U+200A *)
   || (c =? 8232) || (c =? 8233)      (* U+2028, U+2029 *)
   || (c =? 8239) || (c =? 8287)      (* U+202F, U+205F *)
   || (c =? 12288))%N.                (* U+3000 *)

(** [s.lstrip()]: skip the leading whitespace. *)
Fixpoint lstrip (s : str) : str :=
  match s with
  | [] => []
  | c :: s' => if isspace c then lstrip s' else s
  end.

(** [s.rstrip()]: skip the trailing whitespace. *)
Definition rstrip (s : str) : str := rev (lstrip (rev s)).

(** [s.strip()]: CPython's [do_strip] moves the left index past the leading
    whitespace, then the right index back over the trailing whitespace of
    what is left, and returns the slice between the two. *)
Definition strip (s : str) : str := rstrip (lstrip s).

(** [p.rfind(sep)]: the index of the last occurrence of [sep], or [-1]. *)
Fixpoint rfind_from (sep : N) (p : str) (i last : Z) : Z :=
  match p with
  | [] => last
  | c :: p' => rfind_from sep p' (i + 1) (if (c =? sep)%N then i else last)
  end.

Definition rfind (sep : N) (p : str) : Z := rfind_from sep p 0 (-1).

(** The slice [p[i:]] for [0 <= i]. *)
Definition slice_from (i : Z) (p : str) : str := drop (Z.to_nat i) p.

(** The code point of ['/']. *)
Definition slash : N := 47%N.

(** [os.path.basename] ([posixpath.basename]):
    [i = p.rfind('/') + 1; return p[i:]]. *)
Definition basename (p : str) : str :=
  let i := rfind slash p + 1 in
  slice_from i p.

(** The first code point of [s] is whitespace; the last one is. *)
Definition starts_with_space (s : str) : bool :=
  match s with
  | [] => false
  | c :: _ => isspace c
  end.

Definition ends_with_space (s : str) : bool := starts_with_space (rev s).

(** ** Data model *)

(** A message of the conversation buffer: [msg.type] and [msg.content]. *)
Record Message := { type : string; content : str }.

Definition HumanMessage (text : str) : Message := {| type := "human"; content := text |}.
Definition AIMessage (text : str) : Message := {| type := "ai"; content := text |}.

(** A value held in a chunk's metadata: a [str], or a value of another
    type (a number such as a page index, [None]).  The values that
    [os.fspath] accepts besides [str] (bytes, path objects) are left out. *)
Inductive Value :=
| VStr (s : str)
| VInt (n : Z)
| VNone.

(** A retrieved chunk: [doc.page_content] and the dict [doc.metadata]. *)
Record Document := { page_content : str; metadata : gmap string Value }.

(** The request body of [POST /chat]. *)
Record ChatRequest := { query : str }.

(** The dict returned by [qa_chain.invoke], seen at the two keys the
    endpoint reads; [None] stands for an absent key. *)
Record ChainResult := {
  res_answer : option str;
  res_source_documents : option (list Document)
}.

(** The dict returned by [chat_endpoint]: its three keys. *)
Record ChatResponse := {
  answer : str;
  sources : list (gmap string str);
  chat_history : list (gmap string str)
}.

(** The module-level configuration read from the environment (lines 15-17);
    [os.getenv] returns an optional string. *)
Record Config := {
  MONGODB_URI : option str;
  MONGODB_DB : option str;
  MONGODB_COLLECTION : option str
}.

(** [os.getenv(key, default)] on the environment [env]. *)
Definition os_getenv (env : gmap string str) (key : string) (default : option str) : option str :=
  match env !! key with
  | Some v => Some v
  | None => default
  end.

Definition load_config (env : gmap string str) : Config :=
  {| MONGODB_URI := os_getenv env "MONGODB_URI" None;
     MONGODB_DB := os_getenv env "MONGODB_DB" (Some (py "my_db"));
     MONGODB_COLLECTION := os_getenv env "MONGODB_COLLECTION" (Some (py "vector_docs")) |}.

(** ** Exceptions and state *)

(** A raised Python exception, by the name of its class. *)
Inductive Exn := PyExn (cls : string).

Inductive result (A : Type) :=
| Return (a : A)
| Raise (e : Exn).
Arguments Return {A} a.
Arguments Raise {A} e.

Definition is_Return {A} (r : result A) : bool :=
  match r with Return _ => true | Raise _ => false end.

(** A computation over a state [S] that returns or raises; the state reached
    when the exception is raised is kept. *)
Definition SE (S A : Type) : Type := S -> result A * S.

#[global] Instance SE_ret {S} : MRet (SE S) := fun A a s => (Return a, s).

#[global] Instance SE_bind {S} : MBind (SE S) := fun A B f m s =>
  match m s with
  | (Return a, s') => f a s'
  | (Raise e, s') => (Raise e, s')
  end.

(** Code without access to the state. *)
#[global] Instance result_ret : MRet result := fun A a => Return a.

#[global] Instance result_bind : MBind result := fun A B f r =>
  match r with
  | Return a => f a
  | Raise e => Raise e
  end.

Definition eval {S A} (r : result A) : SE S A := fun s => (r, s).

(** [os.fspath(p)]: a [str] as it is, [TypeError] for a value that is not a
    path. *)
Definition os_fspath (p : Value) : result str :=
  match p with
  | VStr s => Return s
  | VInt _ | VNone => Raise (PyExn "TypeError")
  end.

(** [os.path.basename(p)] on a value: [posixpath.basename] begins with
    [p = os.fspath(p)]. *)
Definition os_path_basename (p : Value) : result str :=
  p ← os_fspath p;
  mret (basename p).

(** The process state: the module globals a handler can reach, and the state
    [World] of the external services behind the chain. *)
Record App (World : Type) := {
  config : Config;
  messages : list Message;     (* memory.chat_memory.messages *)
  world : World
}.
Arguments config {World} _.
Arguments messages {World} _.
Arguments world {World} _.

Definition set_messages {World} (msgs : list Message) (app : App World) : App World :=
  {| config := config app; messages := msgs; world := world app |}.

Definition set_world {World} (w : World) (app : App World) : App World :=
  {| config := config app; messages := messages app; world := w |}.

(** Reading [memory.chat_memory.messages]. *)
Definition get_messages {World} : SE (App World) (list Message) :=
  fun app => (Return (messages app), app).

(** The assignment [memory.chat_memory.messages = msgs]. *)
Definition put_messages {World} (msgs : list Message) : SE (App World) unit :=
  fun app => (Return tt, set_messages msgs app).

(** Appending one message to the conversation buffer. *)
Definition append_message {World} (msg : Message) : SE (App World) unit :=
  fun app => (Return tt, set_messages (messages app ++ [msg]) app).

(** A call to an external service, run on the [world] component. *)
Definition call {World A} (c : SE World A) : SE (App World) A :=
  fun app =>
    let (r, w) := c (world app) in (r, set_world w app).

(** ** The route handlers *)

Section Handlers.
Context {World : Type}.

(** [qa_chain.invoke({"question": query})] of the chain object built at
    lines 57-62 with [memory=memory]: a library call that may read and
    write the conversation buffer, and may raise. *)
Variable qa_chain_invoke : str -> SE (App World) ChainResult.

(** Lines 75-78: the loop over the chunks, extending [sources]; it stops at
    the first chunk whose [source] is not a path. *)
Fixpoint collect_sources_from (docs : list Document) (sources : list (gmap string str))
  : result (list (gmap string str)) :=
  match docs with
  | [] => mret sources
  | doc :: docs' =>
      let file_path := default (VStr []) (metadata doc !! "source") in
      pdf_name ← os_path_basename file_path;
      collect_sources_from docs' (sources ++ [ {[ "source" := pdf_name ]} ])
  end.

(** Lines 74-78: [sources = []], then the loop. *)
Definition collect_sources (docs : list Document) : result (list (gmap string str)) :=
  collect_sources_from docs [].

(** Line 84: one record of [chat_history]. *)
Definition render (msg : Message) : gmap string str :=
  if String.eqb (type msg) "human"
  then {[ "user" := content msg ]}
  else {[ "bot" := content msg ]}.

(** [POST /chat] (lines 69-87). *)
Definition chat_endpoint (request : ChatRequest) : SE (App World) ChatResponse :=
  let query := strip (query request) in
  response ← qa_chain_invoke query;
  sources ← eval (collect_sources (default [] (res_source_documents response)));
  msgs ← get_messages;
  mret {| answer := default [] (res_answer response);
          sources := sources;
          chat_history := map render msgs |}.

(** [GET /reset_memory] (lines 89-92). *)
Definition reset_memory : SE (App World) (gmap string str) :=
  put_messages [];;
  mret {[ "message" := py "Memory cleared!" ]}.

(** [GET /] (lines 94-96). *)
Definition root : SE (App World) (gmap string str) :=
  mret {[ "message" := py "RAG Chatbot (MongoDB Atlas) is running!" ]}.

End Handlers.

(** The path read at line 76 from a chunk whose [source] is a [str] or is
    absent, and the entry that line 78 makes of it. *)
Definition source_path (doc : Document) : str :=
  match metadata doc !! "source" with
  | Some (VStr s) => s
  | _ => []
  end.

Definition source_entry (doc : Document) : gmap string str :=
  {[ "source" := basename (source_path doc) ]}.

(** The [source] of a chunk is absent or a [str]; it is present and is
    not. *)
Definition str_source (doc : Document) : bool :=
  match metadata doc !! "source" with
  | Some (VStr _) | None => true
  | Some _ => false
  end.

(** Requests served one after the other, each to completion before the next
    starts (no interleaving); the outcomes are listed in call order. *)
Fixpoint serve {S Req Resp} (handler : Req -> SE S Resp) (reqs : list Req) (s : S)
  : list (result Resp) * S :=
  match reqs with
  | [] => ([], s)
  | r :: reqs' =>
      let (o, s1) := handler r s in
      let (os, s2) := serve handler reqs' s1 in
      (o :: os, s2)
  end.

(** The records that a served request adds to the rendered history: the
    user record and the bot record when it returned, none when it raised. *)
Definition exchange (request : ChatRequest) (outcome : result ChatResponse)
  : list (gmap string str) :=
  match outcome with
  | Return resp => [ {[ "user" := strip (query request) ]}; {[ "bot" := answer resp ]} ]
  | Raise _ => []
  end.

(** The rendered history of a run of requests, in call order. *)
Definition transcript (reqs : list ChatRequest) (outs : list (result ChatResponse))
  : list (gmap string str) :=
  concat (zip_with exchange reqs outs).

(** ** The chain behind [qa_chain.invoke] *)

Section Chain.
Context {World Vector : Type}.

(** The three external providers of the pipeline. *)
Variable embed_query : str -> SE World Vector.
Variable similarity_search : Vector -> SE World (list Document).
Variable generate : str -> list Document -> list Message -> SE World str.

(** Modelled from the spec: [ConversationalRetrievalChain.invoke] and
    [ConversationBufferMemory], the library code behind the chain object
    [qa_chain] and the buffer [memory] of lines 49-62, are not part of the
    source.  Section 4.1: the query is embedded, the similar chunks are
    fetched, the language model is invoked on the query, the chunks and the
    full history, and the answer comes back with the chunks used; on success
    a user turn and an assistant turn are appended, in that order; when a
    provider fails the failure is surfaced and the memory is left
    unmodified. *)
Definition ConversationalRetrievalChain_invoke (question : str)
  : SE (App World) ChainResult :=
  history ← get_messages;
  vector ← call (embed_query question);
  chunks ← call (similarity_search vector);
  text ← call (generate question chunks history);
  append_message (HumanMessage question);;
  append_message (AIMessage text);;
  mret {| res_answer := Some text; res_source_documents := Some chunks |}.

(** [POST /chat] over that chain. *)
Definition chat : ChatRequest -> SE (App World) ChatResponse :=
  chat_endpoint ConversationalRetrievalChain_invoke.

(** The pipeline's provider calls alone, on the world of the services. *)
Definition pipeline (question : str) (history : list Message)
  : SE World (str * list Document) :=
  vector ← embed_query question;
  chunks ← similarity_search vector;
  text ← generate question chunks history;
  mret (text, chunks).

(** Some provider call of the pipeline fails with [e]: the embedding, or the
    retrieval after it, or the generation after both. *)
Definition provider_failure (question : str) (history : list Message)
    (w : World) (e : Exn) : Prop :=
  (exists w1, embed_query question w = (Raise e, w1))
  \/ (exists v w1 w2,
        embed_query question w = (Return v, w1)
        /\ similarity_search v w1 = (Raise e, w2))
  \/ (exists v w1 chunks w2 w3,
        embed_query question w = (Return v, w1)
        /\ similarity_search v w1 = (Return chunks, w2)
        /\ generate question chunks history w2 = (Raise e, w3)).

End Chain.

(** ** Module initialisation *)

Section Startup.
Context {World Client : Type}.

(** [MongoClient(host)], the constructor of the database client (line 31).
    Like every library constructor it runs in the process, so within reach
    of the environment. *)
Variable MongoClient : gmap string str -> option str -> SE World Client.

(** Lines 32-62: the collection handle, the embedding model, the vector
    store, the language model, the memory and the chain.  The constructors
    get the client and the names of lines 32-33, and read their own
    settings (the API key of the language model for one) from the
    environment. *)
Variable build_chain : gmap string str -> Client -> Config -> SE World unit.



End Startup.

(** ** The routes *)

(** The three routes registered on [app] by the decorators of lines 69, 89
    and 94, and the body each one answers with. *)
Inductive Route :=
| POST_chat (request : ChatRequest)
| GET_reset_memory
| GET_root.

Inductive Payload :=
| ChatPayload (resp : ChatResponse)
| MessagePayload (body : gmap string str).

Definition dispatch {World} (qa_chain_invoke : str -> SE (App World) ChainResult)
    (route : Route) : SE (App World) Payload :=
  match route with
  | POST_chat request => resp ← chat_endpoint qa_chain_invoke request; mret (ChatPayload resp)
  | GET_reset_memory => body ← reset_memory; mret (MessagePayload body)
  | GET_root => body ← root; mret (MessagePayload body)
  end.

(** A buffer made of whole rounds: a human message followed by an AI
    message, round after round. *)
Fixpoint paired (msgs : list Message) : bool :=
  match msgs with
  | [] => true
  | [_] => false
  | user_turn :: bot_turn :: rest =>
      String.eqb (type user_turn) "human"
      && String.eqb (type bot_turn) "ai"
      && paired rest
  end.

(** ** Test doubles *)

Module Mock.

(** The world of the doubles counts the provider calls made. *)
Definition tick {A} (a : A) : SE nat A := fun n => (Return a, S n).

Definition policy_chunk : Document :=
  {| page_content := py "Refunds are processed within 30 days of purchase.";
     metadata := {[ "source" := VStr (py "/docs/policy.pdf") ]} |}.

(** A chunk stored with a number under [source]. *)
Definition numbered_chunk : Document :=
  {| page_content := py "Opening hours: 9 to 5.";
     metadata := {[ "source" := VInt 3 ]} |}.

Definition embed_query (q : str) : SE nat (list Z) := tick [Z.of_nat (length q)].

Definition similarity_search (v : list Z) : SE nat (list Document) := tick [policy_chunk].

Definition generate (q : str) (chunks : list Document) (history : list Message)
  : SE nat str := tick (py "Refunds are processed within 30 days.").

(** A language model whose call fails. *)
Definition generate_down (q : str) (chunks : list Document) (history : list Message)
  : SE nat str := fun n => (Raise (PyExn "APIConnectionError"), S n).

(** A retriever that returns the chunk with the number. *)
Definition similarity_search_numbered (v : list Z) : SE nat (list Document) :=
  tick [numbered_chunk].

Definition chat_ok := chat embed_query similarity_search generate.
Definition chat_numbered := chat embed_query similarity_search_numbered generate.
Definition chat_down := chat embed_query similarity_search generate_down.

Definition app0 : App nat :=
  {| config := load_config ∅; messages := []; world := 0%nat |}.


Definition echo_chain (q : str) : SE (App nat) ChainResult :=
  mret {| res_answer := Some q; res_source_documents := Some [] |}.




Definition refund_request : ChatRequest := {| query := py "What is the refund policy?" |}.
Definition hours_request : ChatRequest := {| query := py "  And the opening hours? " |}.

End Mock.

(** * Properties *)

(** ** [str.strip] *)

Example strip_ex :
  strip (py "  What is the refund policy?  ") = py "What is the refund policy?".
Proof. reflexivity. Qed.

Lemma lstrip_split (s : str) :
  exists l, s = l ++ lstrip s /\ Forall (fun c => isspace c = true) l.
Proof.
  induction s as [|c s IH]; simpl.
  - exists []. split; [reflexivity | constructor].
  - destruct (isspace c) eqn:Hc.
    + destruct IH as (l & Hs & Hl).
      exists (c :: l). split.
      * simpl. congruence.
      * constructor; assumption.
    + exists []. split; [reflexivity | constructor].
Qed.

Lemma lstrip_head (s : str) : starts_with_space (lstrip s) = false.
Proof.
  induction s as [|c s IH]; simpl; [reflexivity|].
  destruct (isspace c) eqn:Hc; [exact IH | simpl; exact Hc].
Qed.

Lemma lstrip_id (s : str) : starts_with_space s = false -> lstrip s = s.
Proof. destruct s as [|c s]; simpl; [reflexivity|]. intros ->. reflexivity. Qed.

Lemma lstrip_spaces (s : str) :
  Forall (fun c => isspace c = true) s -> lstrip s = [].
Proof.
  induction 1 as [|c s Hc _ IH]; simpl; [reflexivity|].
  rewrite Hc. exact IH.
Qed.

Lemma rstrip_split (s : str) :
  exists r, s = rstrip s ++ r /\ Forall (fun c => isspace c = true) r.
Proof.
  destruct (lstrip_split (rev s)) as (l & Hs & Hl).
  exists (rev l). split.
  - unfold rstrip. rewrite <- rev_app_distr, <- Hs. symmetry. apply rev_involutive.
  - apply Forall_rev, Hl.
Qed.

Lemma rstrip_tail (s : str) : ends_with_space (rstrip s) = false.
Proof.
  unfold ends_with_space, rstrip. rewrite rev_involutive. apply lstrip_head.
Qed.

Lemma rstrip_head (s : str) :
  starts_with_space s = false -> starts_with_space (rstrip s) = false.
Proof.
  intros Hs. destruct (rstrip_split s) as (r & Heq & _).
  destruct (rstrip s) as [|c t]; [reflexivity|].
  rewrite Heq in Hs. exact Hs.
Qed.

(** [strip] removes a whitespace prefix and a whitespace suffix, and what is
    left neither starts nor ends with whitespace. *)
Lemma strip_spec (s : str) :
  (exists l r, s = l ++ strip s ++ r
     /\ Forall (fun c => isspace c = true) l
     /\ Forall (fun c => isspace c = true) r)
  /\ starts_with_space (strip s) = false
  /\ ends_with_space (strip s) = false.
Proof.
  unfold strip. split; [|split].
  - destruct (lstrip_split s) as (l & Hl & Hsl).
    destruct (rstrip_split (lstrip s)) as (r & Hr & Hsr).
    exists l, r. split; [|split]; try assumption.
    rewrite <- Hr. exact Hl.
  - apply rstrip_head, lstrip_head.
  - apply rstrip_tail.
Qed.

Lemma strip_spaces (s : str) :
  Forall (fun c => isspace c = true) s -> strip s = [].
Proof. intros H. unfold strip. rewrite (lstrip_spaces s H). reflexivity. Qed.

Lemma strip_nil : strip [] = [].
Proof. reflexivity. Qed.

(** ** [os.path.basename] *)

Example basename_ex : basename (py "/docs/policy.pdf") = py "policy.pdf".
Proof. reflexivity. Qed.

Lemma rfind_from_spec (sep : N) (p : str) :
  forall i last,
    let r := rfind_from sep p i last in
    (r = last /\ sep ∉ p)
    \/ (i <= r < i + Z.of_nat (length p)
        /\ p !! Z.to_nat (r - i) = Some sep
        /\ sep ∉ drop (S (Z.to_nat (r - i))) p).
Proof.
  induction p as [|c p IH]; intros i last; simpl.
  - left. split; [reflexivity | apply not_elem_of_nil].
  - specialize (IH (i + 1) (if (c =? sep)%N then i else last)).
    simpl in IH. destruct IH as [[Hr Hnot] | (Hrange & Hat & Hnot)].
    + rewrite Hr. destruct (N.eqb_spec c sep) as [-> | Hne].
      * right. replace (i - i) with 0 by lia. simpl.
        split; [lia | split; [reflexivity | exact Hnot]].
      * left. split; [reflexivity|].
        rewrite elem_of_cons. intros [-> | Hin]; [congruence | contradiction].
    + right.
      set (r := rfind_from sep p (i + 1) (if (c =? sep)%N then i else last)) in *.
      replace (Z.to_nat (r - i)) with (S (Z.to_nat (r - (i + 1)))) by lia.
      simpl. split; [lia | split; assumption].
Qed.

(** [basename p] is what follows the last ['/'] of [p]: it has no ['/'], and
    the part before it is empty or ends with ['/']. *)
Lemma basename_spec (p : str) :
  (slash ∉ basename p)
  /\ exists dir, p = dir ++ basename p /\ (dir = [] \/ last dir = Some slash).
Proof.
  unfold basename, slice_from, rfind.
  destruct (rfind_from_spec slash p 0 (-1)) as [[Hr Hnot] | (Hrange & Hat & Hnot)].
  - rewrite Hr. simpl. split; [exact Hnot|].
    exists []. split; [reflexivity | left; reflexivity].
  - set (r := rfind_from slash p 0 (-1)) in *.
    replace (r - 0) with r in * by lia.
    replace (Z.to_nat (r + 1)) with (S (Z.to_nat r)) by lia.
    split; [exact Hnot|].
    exists (take (S (Z.to_nat r)) p). split.
    + symmetry. apply take_drop.
    + right. rewrite (take_S_r _ _ _ Hat). apply last_snoc.
Qed.

Lemma basename_no_slash (p : str) : slash ∉ p -> basename p = p.
Proof.
  intros Hnot. unfold basename, slice_from, rfind.
  destruct (rfind_from_spec slash p 0 (-1)) as [[Hr _] | (Hrange & Hat & _)].
  - rewrite Hr. reflexivity.
  - exfalso. apply Hnot. eapply list_elem_of_lookup_2. exact Hat.
Qed.

(** ** The handlers over any chain *)

Ltac se_unfold :=
  unfold mbind, SE_bind, mret, SE_ret, get_messages, put_messages,
    append_message, call, eval in *.

Ltac res_unfold :=
  unfold mbind, result_bind, mret, result_ret in *.

Lemma collect_sources_acc (docs : list Document) :
  forall acc,
    collect_sources_from docs acc =
    match collect_sources docs with
    | Return entries => Return (acc ++ entries)
    | Raise e => Raise e
    end.
Proof.
  unfold collect_sources.
  induction docs as [|doc docs IH]; intros acc; simpl; res_unfold.
  - rewrite app_nil_r. reflexivity.
  - destruct (os_path_basename (default (VStr []) (metadata doc !! "source")))
      as [pdf_name | e]; [|reflexivity].
    rewrite (IH (acc ++ _)), (IH [_]).
    destruct (collect_sources_from docs []) as [entries | e]; [|reflexivity].
    rewrite <- app_assoc. reflexivity.
Qed.

Lemma collect_sources_cons (doc : Document) (docs : list Document) :
  collect_sources (doc :: docs) =
  match os_path_basename (default (VStr []) (metadata doc !! "source")) with
  | Return pdf_name =>
      match collect_sources docs with
      | Return entries => Return ({[ "source" := pdf_name ]} :: entries)
      | Raise e => Raise e
      end
  | Raise e => Raise e
  end.
Proof.
  unfold collect_sources at 1. simpl. res_unfold.
  destruct (os_path_basename (default (VStr []) (metadata doc !! "source")))
    as [pdf_name | e]; [|reflexivity].
  apply collect_sources_acc.
Qed.

(** The loop returns one entry per chunk when every [source] is a [str] or
    is absent, and raises [TypeError] otherwise. *)
Lemma collect_sources_spec (docs : list Document) :
  collect_sources docs =
  if forallb str_source docs
  then Return (map source_entry docs)
  else Raise (PyExn "TypeError").
Proof.
  induction docs as [|doc docs IH]; [reflexivity|].
  rewrite collect_sources_cons, IH.
  change (forallb str_source (doc :: docs))
    with (str_source doc && forallb str_source docs).
  change (map source_entry (doc :: docs))
    with (source_entry doc :: map source_entry docs).
  assert (Hdoc : os_path_basename (default (VStr []) (metadata doc !! "source"))
                 = if str_source doc
                   then Return (basename (source_path doc))
                   else Raise (PyExn "TypeError")).
  { unfold str_source, source_path.
    destruct (metadata doc !! "source") as [[s | n |]|]; reflexivity. }
  rewrite Hdoc. destruct (str_source doc), (forallb str_source docs); reflexivity.
Qed.

Lemma collect_sources_Return (docs : list Document) (entries : list (gmap string str)) :
  collect_sources docs = Return entries ->
  forallb str_source docs = true /\ entries = map source_entry docs.
Proof.
  rewrite collect_sources_spec.
  destruct (forallb str_source docs); intros H; inversion H. split; reflexivity.
Qed.

(** [chat_endpoint] runs the chain once, on the trimmed query, and raises
    what the chain raises; otherwise it runs the loop over the chunks, raises
    what the loop raises, and otherwise shapes the response from the chain's
    result and from the buffer as the chain left it. *)
Lemma chat_endpoint_run {World} (chain : str -> SE (App World) ChainResult)
    (request : ChatRequest) (app : App World) :
  chat_endpoint chain request app =
  match chain (strip (query request)) app with
  | (Return response, app') =>
      match collect_sources (default [] (res_source_documents response)) with
      | Return entries =>
          (Return {| answer := default [] (res_answer response);
                     sources := entries;
                     chat_history := map render (messages app') |}, app')
      | Raise e => (Raise e, app')
      end
  | (Raise e, app') => (Raise e, app')
  end.
Proof.
  unfold chat_endpoint. se_unfold.
  destruct (chain (strip (query request)) app) as [[response | e] app']; [|reflexivity].
  destruct (collect_sources (default [] (res_source_documents response))); reflexivity.
Qed.

Lemma chat_endpoint_Return {World} (chain : str -> SE (App World) ChainResult)
    request app resp app' :
  chat_endpoint chain request app = (Return resp, app') ->
  exists response,
    chain (strip (query request)) app = (Return response, app')
    /\ forallb str_source (default [] (res_source_documents response)) = true
    /\ resp = {| answer := default [] (res_answer response);
                 sources := map source_entry (default [] (res_source_documents response));
                 chat_history := map render (messages app') |}.
Proof.
  rewrite chat_endpoint_run.
  destruct (chain (strip (query request)) app) as [[response | e] app1];
    [|intros H; inversion H].
  destruct (collect_sources (default [] (res_source_documents response)))
    as [entries | e] eqn:Hsrc; intros H; inversion H; subst.
  destruct (collect_sources_Return _ _ Hsrc) as [Hstr ->].
  exists response. repeat split. exact Hstr.
Qed.

Lemma render_cases (msg : Message) :
  (type msg = "human"%string -> render msg = {[ "user" := content msg ]})
  /\ (type msg <> "human"%string -> render msg = {[ "bot" := content msg ]}).
Proof.
  unfold render. destruct (String.eqb_spec (type msg) "human") as [Heq | Hne].
  - split; [reflexivity | congruence].
  - split; [congruence | reflexivity].
Qed.

(** C3: the chain is invoked on the query with its leading and trailing
    whitespace removed, and the endpoint has no validation of the query: what
    it does is decided by the outcome of the chain on the trimmed query.  In
    particular an empty or whitespace-only query reaches the chain as the
    empty string. *)
Theorem chat_endpoint_trims_query {World}
    (chain : str -> SE (App World) ChainResult)
    (request : ChatRequest) (app : App World) :
  let q := strip (query request) in
  (exists l r, query request = l ++ q ++ r
     /\ Forall (fun c => isspace c = true) l
     /\ Forall (fun c => isspace c = true) r)
  /\ starts_with_space q = false
  /\ ends_with_space q = false
  /\ chat_endpoint chain request app =
     match chain q app with
     | (Return response, app') =>
         match collect_sources (default [] (res_source_documents response)) with
         | Return entries =>
             (Return {| answer := default [] (res_answer response);
                        sources := entries;
                        chat_history := map render (messages app') |}, app')
         | Raise e => (Raise e, app')
         end
     | (Raise e, app') => (Raise e, app')
     end
  /\ (Forall (fun c => isspace c = true) (query request) ->
      q = []
      /\ chat_endpoint chain request app =
         match chain [] app with
         | (Return response, app') =>
             match collect_sources (default [] (res_source_documents response)) with
             | Return entries =>
                 (Return {| answer := default [] (res_answer response);
                            sources := entries;
                            chat_history := map render (messages app') |}, app')
             | Raise e => (Raise e, app')
             end
         | (Raise e, app') => (Raise e, app')
         end).
Proof.
  intros q. destruct (strip_spec (query request)) as (Hsplit & Hhead & Htail).
  split; [exact Hsplit|]. split; [exact Hhead|]. split; [exact Htail|].
  split; [apply chat_endpoint_run|].
  intros Hws. split; [apply strip_spaces, Hws|].
  rewrite chat_endpoint_run, (strip_spaces (query request) Hws). reflexivity.
Qed.

Lemma chat_endpoint_trims_query_witness :
  strip (py "   ") = []
  /\ fst (chat_endpoint Mock.echo_chain {| query := py "   " |} Mock.app0)
     = Return {| answer := []; sources := []; chat_history := [] |}.
Proof.
  assert (Hws : Forall (fun c => isspace c = true) (query {| query := py "   " |})).
  { repeat constructor. }
  destruct (chat_endpoint_trims_query Mock.echo_chain {| query := py "   " |} Mock.app0)
    as (_ & _ & _ & _ & Hempty).
  destruct (Hempty Hws) as [Hq Hrun].
  split; [exact Hq | rewrite Hrun; reflexivity].
Defined.

(** C4: on success, [sources] has one entry per retrieved chunk, in
    retrieval order and without deduplication; the entry of a chunk is
    [{"source": b}] where [b] is the chunk's [source] metadata (the empty
    string when the key is absent) after its last ['/']. *)
Theorem chat_endpoint_sources {World}
    (chain : str -> SE (App World) ChainResult)
    (request : ChatRequest) (app app' : App World) (resp : ChatResponse) :
  chat_endpoint chain request app = (Return resp, app') ->
  exists response,
    chain (strip (query request)) app = (Return response, app')
    /\ let docs := default [] (res_source_documents response) in
       sources resp = map source_entry docs
       /\ length (sources resp) = length docs
       /\ (forall i doc, docs !! i = Some doc ->
             exists path b dir,
               default (VStr []) (metadata doc !! "source") = VStr path
               /\ sources resp !! i = Some {[ "source" := b ]}
               /\ path = dir ++ b
               /\ (dir = [] \/ last dir = Some slash)
               /\ (slash ∉ b)
               /\ (metadata doc !! "source" = None -> b = [])).
Proof.
  intros Hrun.
  destruct (chat_endpoint_Return _ _ _ _ _ Hrun) as (response & Hchain & Hstr & ->).
  exists response. split; [exact Hchain|]. simpl.
  split; [reflexivity|]. split; [apply length_map|].
  intros i doc Hdoc.
  assert (Hdoc_str : str_source doc = true).
  { rewrite forallb_forall in Hstr. apply Hstr.
    apply list_elem_of_In. eapply list_elem_of_lookup_2, Hdoc. }
  destruct (basename_spec (source_path doc)) as (Hnot & dir & Hdir & Hlast).
  exists (source_path doc), (basename (source_path doc)), dir.
  split.
  { unfold str_source in Hdoc_str. unfold source_path.
    destruct (metadata doc !! "source") as [[s | n |]|]; simpl;
      try discriminate Hdoc_str; reflexivity. }
  split.
  { rewrite list_lookup_fmap, Hdoc. reflexivity. }
  split; [exact Hdir|]. split; [exact Hlast|]. split; [exact Hnot|].
  unfold source_path. intros ->. reflexivity.
Qed.

(** The scenario of the specification, with the doubles of [Mock]. *)
Example refund_policy_scenario :
  fst (Mock.chat_ok {| query := py "What is the refund policy?" |} Mock.app0)
  = Return {| answer := py "Refunds are processed within 30 days.";
              sources := [ {[ "source" := py "policy.pdf" ]} ];
              chat_history :=
                [ {[ "user" := py "What is the refund policy?" ]};
                  {[ "bot" := py "Refunds are processed within 30 days." ]} ] |}.
Proof. vm_compute. reflexivity. Qed.

Lemma chat_endpoint_sources_witness :
  exists resp app',
    Mock.chat_ok {| query := py "What is the refund policy?" |} Mock.app0 = (Return resp, app')
    /\ sources resp = [ {[ "source" := py "policy.pdf" ]} ].
Proof.
  destruct (Mock.chat_ok {| query := py "What is the refund policy?" |} Mock.app0)
    as [r app'] eqn:Hrun.
  assert (Hok : is_Return r = true).
  { replace r with (fst (Mock.chat_ok {| query := py "What is the refund policy?" |} Mock.app0))
      by (rewrite Hrun; reflexivity).
    vm_compute. reflexivity. }
  destruct r as [resp | e]; [|discriminate Hok].
  exists resp, app'. split; [reflexivity|].
  destruct (chat_endpoint_sources _ _ _ _ _ Hrun) as (response & Hchain & Hsrc & _).
  rewrite Hsrc.
  assert (Hdocs : res_source_documents response = Some [Mock.policy_chunk]).
  { vm_compute in Hchain. inversion Hchain. reflexivity. }
  rewrite Hdocs. vm_compute. reflexivity.
Defined.

(** C8: [chat_history] has one record per stored message, in order: a
    message whose type is ["human"] gives [{"user": content}], a message of
    any other type gives [{"bot": content}], and no record has another
    shape. *)
Theorem chat_history_rendering {World}
    (chain : str -> SE (App World) ChainResult)
    (request : ChatRequest) (app app' : App World) (resp : ChatResponse) :
  chat_endpoint chain request app = (Return resp, app') ->
  length (chat_history resp) = length (messages app')
  /\ (forall i msg, messages app' !! i = Some msg ->
        (type msg = "human"%string ->
           chat_history resp !! i = Some {[ "user" := content msg ]})
        /\ (type msg <> "human"%string ->
           chat_history resp !! i = Some {[ "bot" := content msg ]}))
  /\ (forall i record, chat_history resp !! i = Some record ->
        exists msg, messages app' !! i = Some msg
          /\ (record = {[ "user" := content msg ]}
              \/ record = {[ "bot" := content msg ]})).
Proof.
  intros Hrun. destruct (chat_endpoint_Return _ _ _ _ _ Hrun) as (response & _ & _ & ->).
  simpl. split; [apply length_map|]. split.
  - intros i msg Hmsg. destruct (render_cases msg) as [Hhuman Hother].
    split; intros Hty; rewrite list_lookup_fmap, Hmsg; simpl; f_equal; auto.
  - intros i record. rewrite list_lookup_fmap.
    destruct (messages app' !! i) as [msg|] eqn:Hmsg; simpl; [|discriminate].
    intros [= <-]. exists msg. split; [reflexivity|].
    destruct (render_cases msg) as [Hhuman Hother].
    destruct (string_dec (type msg) "human") as [Hty | Hty]; [left | right]; auto.
Qed.

Lemma chat_history_rendering_witness :
  exists resp app',
    Mock.chat_ok {| query := py "What is the refund policy?" |} Mock.app0 = (Return resp, app')
    /\ length (chat_history resp) = length (messages app').
Proof.
  destruct (Mock.chat_ok {| query := py "What is the refund policy?" |} Mock.app0)
    as [r app'] eqn:Hrun.
  assert (Hok : is_Return r = true).
  { replace r with (fst (Mock.chat_ok {| query := py "What is the refund policy?" |} Mock.app0))
      by (rewrite Hrun; reflexivity).
    vm_compute. reflexivity. }
  destruct r as [resp | e]; [|discriminate Hok].
  exists resp, app'. split; [reflexivity|].
  exact (proj1 (chat_history_rendering _ _ _ _ _ Hrun)).
Defined.

(** A buffer holding a system message besides the two usual kinds. *)
Example render_three_types :
  map render [ HumanMessage (py "hi");
               AIMessage (py "hello");
               {| type := "system"; content := py "be brief" |} ]
  = [ {[ "user" := py "hi" ]}; {[ "bot" := py "hello" ]}; {[ "bot" := py "be brief" ]} ].
Proof. vm_compute. reflexivity. Qed.



(** C5: [reset_memory] empties the buffer, touches nothing else and returns
    the fixed payload; a second call in a row returns the same payload and
    leaves the same state, with the buffer still empty. *)
Theorem reset_memory_idempotent {World} (app : App World) :
  let payload : gmap string str := {[ "message" := py "Memory cleared!" ]} in
  let (r1, app1) := reset_memory app in
  let (r2, app2) := reset_memory app1 in
  r1 = Return payload
  /\ r2 = Return payload
  /\ messages app1 = []
  /\ messages app2 = []
  /\ app2 = app1
  /\ config app1 = config app /\ world app1 = world app.
Proof.
  unfold reset_memory. se_unfold. simpl.
  repeat split; reflexivity.
Qed.

Lemma reset_memory_run {World} (app : App World) :
  reset_memory app
  = (Return {[ "message" := py "Memory cleared!" ]}, set_messages [] app).
Proof. reflexivity. Qed.

(** C6: [root] returns the fixed payload and leaves the process state as it
    was. *)
Theorem root_payload {World} (app : App World) :
  root app
  = (Return {[ "message" := py "RAG Chatbot (MongoDB Atlas) is running!" ]}, app).
Proof. reflexivity. Qed.

(** ** The endpoint over the retrieval chain *)

Section ChainProperties.
Context {World Vector : Type}.
Variable embed_query : str -> SE World Vector.
Variable similarity_search : Vector -> SE World (list Document).
Variable generate : str -> list Document -> list Message -> SE World str.

Local Abbreviation invoke := (ConversationalRetrievalChain_invoke embed_query similarity_search generate).
Local Abbreviation chat_ := (chat embed_query similarity_search generate).
Local Abbreviation pipeline_ := (pipeline embed_query similarity_search generate).
Local Abbreviation failure_ := (provider_failure embed_query similarity_search generate).

(** The chain writes the buffer only after the three provider calls have
    returned. *)
Lemma invoke_run (question : str) (app : App World) :
  invoke question app =
  match pipeline_ question (messages app) (world app) with
  | (Return (text, chunks), w) =>
      (Return {| res_answer := Some text; res_source_documents := Some chunks |},
       {| config := config app;
          messages := messages app ++ [HumanMessage question; AIMessage text];
          world := w |})
  | (Raise e, w) => (Raise e, set_world w app)
  end.
Proof.
  unfold ConversationalRetrievalChain_invoke, pipeline. se_unfold.
  destruct app as [cfg msgs w]; simpl.
  destruct (embed_query question w) as [[v | e] w1]; simpl; [|reflexivity].
  destruct (similarity_search v w1) as [[chunks | e] w2]; simpl; [|reflexivity].
  destruct (generate question chunks msgs w2) as [[text | e] w3]; simpl; [|reflexivity].
  unfold set_messages, set_world; simpl. rewrite <- app_assoc. reflexivity.
Qed.

Lemma provider_failure_pipeline (question : str) (history : list Message)
    (w : World) (e : Exn) :
  failure_ question history w e <->
  exists w', pipeline_ question history w = (Raise e, w').
Proof.
  unfold provider_failure, pipeline. se_unfold. split.
  - intros [(w1 & H1) | [(v & w1 & w2 & H1 & H2) | (v & w1 & chunks & w2 & w3 & H1 & H2 & H3)]].
    + rewrite H1. eauto.
    + rewrite H1, H2. eauto.
    + rewrite H1, H2, H3. eauto.
  - intros (w' & H).
    destruct (embed_query question w) as [[v | e1] w1] eqn:H1.
    2:{ inversion H; subst. left. eauto. }
    destruct (similarity_search v w1) as [[chunks | e2] w2] eqn:H2.
    2:{ inversion H; subst. right. left. eauto 10. }
    destruct (generate question chunks history w2) as [[text | e3] w3] eqn:H3.
    { inversion H. }
    inversion H; subst. right. right. eauto 10.
Qed.

(** One request over the chain.  It raises with the buffer as it was when a
    provider call fails; once the chain has returned, the pair of turns is in
    the buffer, and the request returns, or raises what the loop over the
    chunks raises. *)
Lemma chat_run (request : ChatRequest) (app : App World) :
  let q := strip (query request) in
  chat_ request app =
  match pipeline_ q (messages app) (world app) with
  | (Return (text, chunks), w) =>
      let msgs := messages app ++ [HumanMessage q; AIMessage text] in
      let app' := {| config := config app; messages := msgs; world := w |} in
      match collect_sources chunks with
      | Return entries =>
          (Return {| answer := text;
                     sources := entries;
                     chat_history := map render msgs |}, app')
      | Raise e => (Raise e, app')
      end
  | (Raise e, w) => (Raise e, set_world w app)
  end.
Proof.
  intros q. unfold chat. rewrite chat_endpoint_run, invoke_run. fold q.
  destruct (pipeline_ q (messages app) (world app)) as [[[text chunks] | e] w];
    reflexivity.
Qed.

Lemma chat_Return (request : ChatRequest) (app app' : App World) (resp : ChatResponse) :
  chat_ request app = (Return resp, app') ->
  messages app' =
    messages app ++ [HumanMessage (strip (query request)); AIMessage (answer resp)]
  /\ config app' = config app
  /\ chat_history resp = map render (messages app').
Proof.
  rewrite chat_run.
  destruct (pipeline_ (strip (query request)) (messages app) (world app))
    as [[[text chunks] | e] w]; simpl; [|intros H; inversion H].
  destruct (collect_sources chunks) as [entries | e];
    intros H; inversion H; subst; simpl.
  repeat split; reflexivity.
Qed.

Lemma chat_Raise (request : ChatRequest) (app app' : App World) (e : Exn) :
  chat_ request app = (Raise e, app') ->
  config app' = config app
  /\ ((messages app' = messages app
       /\ failure_ (strip (query request)) (messages app) (world app) e)
      \/ (exists text chunks w,
            pipeline_ (strip (query request)) (messages app) (world app)
              = (Return (text, chunks), w)
            /\ collect_sources chunks = Raise e
            /\ forallb str_source chunks = false
            /\ messages app' =
                 messages app
                 ++ [HumanMessage (strip (query request)); AIMessage text])).
Proof.
  rewrite chat_run. intros H.
  destruct (pipeline_ (strip (query request)) (messages app) (world app))
    as [[[text chunks] | e1] w] eqn:Hp; simpl in H.
  - destruct (collect_sources chunks) as [entries | e1] eqn:Hsrc;
      inversion H; subst; simpl.
    split; [reflexivity|]. right. exists text, chunks, w.
    split; [reflexivity|]. split; [exact Hsrc|]. split; [|reflexivity].
    rewrite collect_sources_spec in Hsrc.
    destruct (forallb str_source chunks); [discriminate Hsrc | reflexivity].
  - inversion H; subst; simpl. split; [reflexivity|]. left.
    split; [reflexivity|]. apply provider_failure_pipeline. eauto.
Qed.

(** C1, as the code has it: when a provider call of the pipeline fails, the
    request raises that failure and the conversation buffer is as it was
    before the request; a request that returns has appended the pair of
    turns.  The request is not all or nothing, though: it also raises, with
    the pair already in the buffer, when the providers have all returned and
    a retrieved chunk has a [source] that is not a [str]. *)
Theorem chat_failure_leaves_memory (request : ChatRequest) (app : App World) :
  let q := strip (query request) in
  (forall e, failure_ q (messages app) (world app) e ->
     exists app', chat_ request app = (Raise e, app')
       /\ messages app' = messages app
       /\ config app' = config app)
  /\ (forall resp app', chat_ request app = (Return resp, app') ->
        messages app' = messages app ++ [HumanMessage q; AIMessage (answer resp)])
  /\ (forall e app', chat_ request app = (Raise e, app') ->
        (messages app' = messages app /\ failure_ q (messages app) (world app) e)
        \/ (exists text chunks w,
              pipeline_ q (messages app) (world app) = (Return (text, chunks), w)
              /\ collect_sources chunks = Raise e
              /\ forallb str_source chunks = false
              /\ messages app' = messages app ++ [HumanMessage q; AIMessage text])).
Proof.
  intros q. split; [|split].
  - intros e Hfail. apply provider_failure_pipeline in Hfail as (w & Hp).
    exists (set_world w app). rewrite chat_run. fold q. rewrite Hp.
    repeat split.
  - intros resp app' Hrun. apply (chat_Return _ _ _ _ Hrun).
  - intros e app' Hrun. apply (chat_Raise _ _ _ _ Hrun).
Qed.

(** C10: the history of a successful response is the buffer read after the
    chain has appended the new pair: it is the rendering of the buffer the
    request leaves, and it ends with the user record of the trimmed query
    followed by the bot record of the answer returned. *)
Theorem chat_history_snapshot (request : ChatRequest) (app app' : App World)
    (resp : ChatResponse) :
  chat_ request app = (Return resp, app') ->
  chat_history resp = map render (messages app')
  /\ chat_history resp =
       map render (messages app)
       ++ [ {[ "user" := strip (query request) ]}; {[ "bot" := answer resp ]} ]
  /\ last (chat_history resp) = Some {[ "bot" := answer resp ]}.
Proof.
  intros Hrun. destruct (chat_Return _ _ _ _ Hrun) as (Hm & _ & Hh).
  assert (Hpair : chat_history resp =
            map render (messages app)
            ++ [ {[ "user" := strip (query request) ]}; {[ "bot" := answer resp ]} ]).
  { rewrite Hh, Hm, map_app. reflexivity. }
  split; [exact Hh|]. split; [exact Hpair|].
  rewrite Hpair.
  change [ {[ "user" := strip (query request) ]}; {[ "bot" := answer resp ]} ]
    with ([ ({[ "user" := strip (query request) ]} : gmap string str) ]
          ++ [ {[ "bot" := answer resp ]} ]).
  rewrite app_assoc. apply last_snoc.
Qed.

(** What a request that returned has added to the rendered buffer. *)
Lemma chat_exchange (request : ChatRequest) (app app' : App World)
    (resp : ChatResponse) :
  chat_ request app = (Return resp, app') ->
  map render (messages app')
  = map render (messages app) ++ exchange request (Return resp).
Proof.
  intros Hrun. simpl.
  destruct (chat_Return _ _ _ _ Hrun) as (-> & _ & _). rewrite map_app. reflexivity.
Qed.

Lemma serve_length {S Req Resp} (handler : Req -> SE S Resp) (reqs : list Req) :
  forall s outs s', serve handler reqs s = (outs, s') -> length outs = length reqs.
Proof.
  induction reqs as [|r reqs IH]; simpl; intros s outs s' H.
  - inversion H. reflexivity.
  - destruct (handler r s) as [o s1].
    destruct (serve handler reqs s1) as [os s2] eqn:Hs.
    inversion H; subst. simpl. f_equal. eapply IH, Hs.
Qed.

(** In a run of requests that all return, the history returned by the call
    of index [k] is the rendering of the initial buffer followed by the
    transcript of the calls up to it. *)
Lemma serve_history (reqs : list ChatRequest) :
  forall app outs app',
    serve chat_ reqs app = (outs, app') ->
    Forall (fun o => is_Return o = true) outs ->
    forall k resp, outs !! k = Some (Return resp) ->
      chat_history resp =
        map render (messages app) ++ transcript (take (S k) reqs) (take (S k) outs).
Proof.
  unfold transcript.
  induction reqs as [|r reqs IH]; simpl; intros app outs app' H Hok k resp Hk.
  - inversion H; subst. rewrite lookup_nil in Hk. discriminate.
  - destruct (chat_ r app) as [o app1] eqn:Hrun.
    destruct (serve chat_ reqs app1) as [os app2] eqn:Hs.
    inversion H; subst. simpl.
    inversion Hok as [|? ? Ho Hok']; subst.
    destruct o as [resp1 | e]; [|discriminate Ho].
    destruct k as [|k]; simpl in Hk.
    + inversion Hk; subst. rewrite ?take_0. simpl.
      destruct (chat_Return _ _ _ _ Hrun) as (Hm & _ & ->).
      rewrite Hm, map_app. reflexivity.
    + rewrite (IH _ _ _ Hs Hok' k resp Hk), (chat_exchange _ _ _ _ Hrun), <- app_assoc.
      reflexivity.
Qed.

Lemma transcript_length (reqs : list ChatRequest) :
  forall outs, length outs = length reqs ->
    Forall (fun o => is_Return o = true) outs ->
    length (transcript reqs outs) = (2 * length outs)%nat.
Proof.
  unfold transcript.
  induction reqs as [|r reqs IH]; intros [|o outs] Hlen Hok; simpl in *;
    try reflexivity; try discriminate.
  inversion Hok as [|? ? Ho Hok']; subst.
  destruct o as [resp | e]; [|discriminate Ho]. simpl.
  rewrite IH by (auto with lia). lia.
Qed.

(** C2: a successful request appends the user turn of the trimmed query and
    then the assistant turn of the answer, and nothing else; in a run of
    successful requests served one after the other from an empty buffer, the
    response of the call of index [k] (the [k+1]-th call) has a history of
    [2 (k+1)] records, the transcript of the calls so far in call order. *)
Theorem chat_appends_pair :
  (forall request (app app' : App World) resp,
     chat_ request app = (Return resp, app') ->
     messages app' =
       messages app ++ [HumanMessage (strip (query request)); AIMessage (answer resp)]
     /\ length (messages app') = (length (messages app) + 2)%nat)
  /\ (forall reqs (app app' : App World) outs,
       messages app = [] ->
       serve chat_ reqs app = (outs, app') ->
       Forall (fun o => is_Return o = true) outs ->
       forall k resp, outs !! k = Some (Return resp) ->
         length (chat_history resp) = (2 * S k)%nat
         /\ chat_history resp = transcript (take (S k) reqs) (take (S k) outs)).
Proof.
  split.
  - intros request app app' resp Hrun.
    destruct (chat_Return _ _ _ _ Hrun) as (Hm & _ & _).
    split; [exact Hm|]. rewrite Hm, length_app. reflexivity.
  - intros reqs app app' outs Hempty Hserve Hok k resp Hk.
    pose proof (serve_history _ _ _ _ Hserve Hok k resp Hk) as Hh.
    rewrite Hempty in Hh. simpl in Hh.
    split; [|exact Hh]. rewrite Hh.
    pose proof (serve_length _ _ _ _ _ Hserve) as Hlen.
    pose proof (lookup_lt_Some _ _ _ Hk) as Hlt.
    rewrite transcript_length.
    + rewrite length_take. lia.
    + rewrite !length_take. lia.
    + apply Forall_take, Hok.
Qed.

End ChainProperties.

Lemma chat_failure_leaves_memory_witness :
  exists app',
    Mock.chat_down Mock.refund_request Mock.app0 = (Raise (PyExn "APIConnectionError"), app')
    /\ messages app' = [].
Proof.
  destruct (chat_failure_leaves_memory Mock.embed_query Mock.similarity_search
              Mock.generate_down Mock.refund_request Mock.app0) as [Hfail _].
  destruct (Hfail (PyExn "APIConnectionError")) as (app' & Hrun & Hm & _).
  - right. right.
    exists [26], 1%nat, [Mock.policy_chunk], 2%nat, 3%nat.
    repeat split; reflexivity.
  - exists app'. split; [exact Hrun | exact Hm].
Defined.

Lemma chat_history_snapshot_witness :
  exists resp app',
    Mock.chat_ok Mock.refund_request Mock.app0 = (Return resp, app')
    /\ chat_history resp =
         [ {[ "user" := py "What is the refund policy?" ]}; {[ "bot" := answer resp ]} ].
Proof.
  destruct (Mock.chat_ok Mock.refund_request Mock.app0) as [r app'] eqn:Hrun.
  assert (Hok : is_Return r = true).
  { replace r with (fst (Mock.chat_ok Mock.refund_request Mock.app0))
      by (rewrite Hrun; reflexivity).
    vm_compute. reflexivity. }
  destruct r as [resp | e]; [|discriminate Hok].
  exists resp, app'. split; [reflexivity|].
  exact (proj1 (proj2 (chat_history_snapshot _ _ _ _ _ _ _ Hrun))).
Defined.

Lemma chat_appends_pair_witness :
  exists resp,
    fst (serve Mock.chat_ok [Mock.refund_request; Mock.hours_request] Mock.app0) !! 1%nat
      = Some (Return resp)
    /\ length (chat_history resp) = 4%nat.
Proof.
  destruct (serve Mock.chat_ok [Mock.refund_request; Mock.hours_request] Mock.app0)
    as [outs app'] eqn:Hserve.
  assert (Hok : forallb is_Return outs = true /\ length outs = 2%nat).
  { replace outs with
      (fst (serve Mock.chat_ok [Mock.refund_request; Mock.hours_request] Mock.app0))
      by (rewrite Hserve; reflexivity).
    vm_compute. split; reflexivity. }
  destruct Hok as [Hok Hlen].
  destruct outs as [|o1 [|o2 [|o3 outs]]]; try discriminate Hlen.
  destruct o1 as [resp1 | e1]; [|discriminate Hok].
  destruct o2 as [resp2 | e2]; [|discriminate Hok].
  exists resp2. split; [reflexivity|].
  assert (Hempty : messages Mock.app0 = []) by reflexivity.
  refine (proj1 (proj2 (chat_appends_pair Mock.embed_query Mock.similarity_search
                          Mock.generate) _ Mock.app0 app' _ Hempty Hserve _
                   1%nat resp2 eq_refl)).
  repeat constructor.
Defined.

Example two_calls_transcript :
  fst (serve Mock.chat_ok [Mock.refund_request; Mock.hours_request] Mock.app0)
  = [ Return {| answer := py "Refunds are processed within 30 days.";
                sources := [ {[ "source" := py "policy.pdf" ]} ];
                chat_history :=
                  [ {[ "user" := py "What is the refund policy?" ]};
                    {[ "bot" := py "Refunds are processed within 30 days." ]} ] |};
      Return {| answer := py "Refunds are processed within 30 days.";
                sources := [ {[ "source" := py "policy.pdf" ]} ];
                chat_history :=
                  [ {[ "user" := py "What is the refund policy?" ]};
                    {[ "bot" := py "Refunds are processed within 30 days." ]};
                    {[ "user" := py "And the opening hours?" ]};
                    {[ "bot" := py "Refunds are processed within 30 days." ]} ] |} ].
Proof. vm_compute. reflexivity. Qed.

(** With a retrieved chunk whose [source] is a number, the three provider
    calls return, the chain appends the pair, and the request then raises
    [TypeError]: the request has failed and the buffer has changed. *)
Lemma chat_fails_after_append :
  fst (pipeline Mock.embed_query Mock.similarity_search_numbered Mock.generate
         (strip (query Mock.refund_request)) (messages Mock.app0) (world Mock.app0))
    = Return (py "Refunds are processed within 30 days.", [Mock.numbered_chunk])
  /\ fst (Mock.chat_numbered Mock.refund_request Mock.app0) = Raise (PyExn "TypeError")
  /\ messages (snd (Mock.chat_numbered Mock.refund_request Mock.app0))
     = [ HumanMessage (py "What is the refund policy?");
         AIMessage (py "Refunds are processed within 30 days.") ]
  /\ ~ ((exists resp app',
           Mock.chat_numbered Mock.refund_request Mock.app0 = (Return resp, app'))
        \/ (exists e app',
           Mock.chat_numbered Mock.refund_request Mock.app0 = (Raise e, app')
           /\ messages app' = messages Mock.app0)).
Proof.
  split; [vm_compute; reflexivity|].
  split; [vm_compute; reflexivity|].
  split; [vm_compute; reflexivity|].
  intros [(resp & app' & Hrun) | (e & app' & Hrun & Hm)].
  - apply (f_equal fst) in Hrun. vm_compute in Hrun. discriminate Hrun.
  - assert (Hlen : length (messages (snd (Mock.chat_numbered Mock.refund_request Mock.app0)))
                   = 2%nat) by (vm_compute; reflexivity).
    rewrite Hrun in Hlen. simpl in Hlen. rewrite Hm in Hlen. discriminate Hlen.
Qed.

(** ** Module initialisation *)


Lemma os_getenv_set (env : gmap string str) (key : string) (default : option str) (v : str) :
  env !! key = Some v -> os_getenv env key default = Some v.
Proof. unfold os_getenv. intros ->. reflexivity. Qed.




(** * Further properties *)

(** ** More on [str.strip] *)

Lemma lstrip_app_spaces (l t : str) :
  Forall (fun c => isspace c = true) l -> lstrip (l ++ t) = lstrip t.
Proof.
  induction 1 as [|c l Hc _ IH]; simpl; [reflexivity|].
  rewrite Hc. exact IH.
Qed.

Lemma rstrip_app_spaces (t r : str) :
  Forall (fun c => isspace c = true) r -> rstrip (t ++ r) = rstrip t.
Proof.
  intros Hr. unfold rstrip. rewrite rev_app_distr.
  rewrite lstrip_app_spaces by (apply Forall_rev, Hr). reflexivity.
Qed.

Lemma strip_between (l m r : str) :
  Forall (fun c => isspace c = true) l ->
  Forall (fun c => isspace c = true) r ->
  starts_with_space m = false ->
  ends_with_space m = false ->
  strip (l ++ m ++ r) = m.
Proof.
  intros Hl Hr Hhead Htail. unfold strip.
  rewrite lstrip_app_spaces by exact Hl.
  destruct m as [|c m].
  - simpl. rewrite (lstrip_spaces r Hr). reflexivity.
  - rewrite lstrip_id by exact Hhead.
    rewrite rstrip_app_spaces by exact Hr.
    unfold rstrip. rewrite lstrip_id by exact Htail. apply rev_involutive.
Qed.

(** X1: [strip] is determined by its result's shape.  Whenever a string is
    a whitespace prefix, a middle that neither starts nor ends with
    whitespace, and a whitespace suffix, [strip] returns exactly the middle:
    whitespace inside the middle is kept. *)
Theorem strip_middle (l m r : str) :
  Forall (fun c => isspace c = true) l ->
  Forall (fun c => isspace c = true) r ->
  starts_with_space m = false ->
  ends_with_space m = false ->
  strip (l ++ m ++ r) = m.
Proof. apply strip_between. Qed.

Lemma strip_middle_witness :
  strip (py "  " ++ py "refund policy" ++ py " ") = py "refund policy".
Proof.
  apply (strip_middle (py "  ") (py "refund policy") (py " ")).
  - repeat constructor.
  - repeat constructor.
  - reflexivity.
  - reflexivity.
Defined.

Lemma strip_fixed (s : str) :
  starts_with_space s = false -> ends_with_space s = false -> strip s = s.
Proof.
  intros Hhead Htail.
  pose proof (strip_between [] s [] (Forall_nil_2 _) (Forall_nil_2 _) Hhead Htail) as H.
  simpl in H. rewrite app_nil_r in H. exact H.
Qed.

(** X2: [strip] is idempotent. *)
Theorem strip_idempotent (s : str) : strip (strip s) = strip s.
Proof.
  destruct (strip_spec s) as (_ & Hhead & Htail).
  apply strip_fixed; assumption.
Qed.

(** X3: [strip] returns its argument unchanged exactly when the argument
    neither starts nor ends with whitespace. *)
Theorem strip_fixed_iff (s : str) :
  strip s = s <-> (starts_with_space s = false /\ ends_with_space s = false).
Proof.
  split.
  - intros Heq. destruct (strip_spec s) as (_ & Hhead & Htail).
    rewrite Heq in Hhead, Htail. split; assumption.
  - intros [Hhead Htail]. apply strip_fixed; assumption.
Qed.

Lemma strip_padding (l q r : str) :
  Forall (fun c => isspace c = true) l ->
  Forall (fun c => isspace c = true) r ->
  strip (l ++ q ++ r) = strip q.
Proof.
  intros Hl Hr.
  destruct (strip_spec q) as ((l' & r' & Hq & Hl' & Hr') & Hhead & Htail).
  rewrite Hq at 1.
  replace (l ++ (l' ++ strip q ++ r') ++ r) with ((l ++ l') ++ strip q ++ (r' ++ r))
    by (rewrite <- !app_assoc; reflexivity).
  apply strip_between; try assumption; apply Forall_app; split; assumption.
Qed.

(** X4: whitespace around the query never changes what [POST /chat] does:
    for any chain, the padded query gives the same outcome and the same
    final state as the query itself. *)
Theorem chat_endpoint_padding {World}
    (chain : str -> SE (App World) ChainResult)
    (l q r : str) (app : App World) :
  Forall (fun c => isspace c = true) l ->
  Forall (fun c => isspace c = true) r ->
  chat_endpoint chain {| query := l ++ q ++ r |} app
  = chat_endpoint chain {| query := q |} app.
Proof.
  intros Hl Hr. rewrite !chat_endpoint_run. simpl.
  rewrite (strip_padding l q r Hl Hr). reflexivity.
Qed.

Lemma chat_endpoint_padding_witness :
  chat_endpoint Mock.echo_chain {| query := py "  " ++ py "hours?" ++ py " " |} Mock.app0
  = chat_endpoint Mock.echo_chain {| query := py "hours?" |} Mock.app0.
Proof.
  apply (chat_endpoint_padding Mock.echo_chain (py "  ") (py "hours?") (py " ") Mock.app0).
  - repeat constructor.
  - repeat constructor.
Defined.

(** ** More on [os.path.basename] *)

Lemma basename_after_slash (dir name : str) :
  slash ∉ name -> basename (dir ++ slash :: name) = name.
Proof.
  intros Hname. unfold basename, slice_from, rfind.
  destruct (rfind_from_spec slash (dir ++ slash :: name) 0 (-1))
    as [[_ Hnot] | (Hrange & Hat & Hnot)].
  - exfalso. apply Hnot. rewrite elem_of_app, elem_of_cons. right. left. reflexivity.
  - set (r := rfind_from slash (dir ++ slash :: name) 0 (-1)) in *.
    replace (r - 0) with r in * by lia.
    replace (Z.to_nat (r + 1)) with (S (Z.to_nat r)) by lia.
    destruct (lt_eq_lt_dec (Z.to_nat r) (length dir)) as [[Hlt | Heq] | Hgt].
    + exfalso. apply Hnot.
      apply (list_elem_of_lookup_2 _ (length dir - S (Z.to_nat r))%nat).
      rewrite lookup_drop.
      replace (S (Z.to_nat r) + (length dir - S (Z.to_nat r)))%nat with (length dir) by lia.
      apply list_lookup_middle. reflexivity.
    + rewrite Heq.
      change (dir ++ slash :: name) with (dir ++ [slash] ++ name).
      rewrite app_assoc.
      replace (S (length dir)) with (length (dir ++ [slash]))
        by (rewrite length_app; simpl; lia).
      apply drop_app_length.
    + exfalso. apply Hname.
      rewrite lookup_app_r in Hat by lia.
      destruct (Z.to_nat r - length dir)%nat as [|k] eqn:Hk; [lia|].
      simpl in Hat. eapply list_elem_of_lookup_2, Hat.
Qed.

(** X5: the basename of a directory part, a ['/'] and a name without ['/']
    is the name, whatever the directory part is: every leading directory is
    dropped, however deep the path. *)
Theorem basename_join (dir name : str) :
  slash ∉ name -> basename (dir ++ slash :: name) = name.
Proof. apply basename_after_slash. Qed.

Lemma basename_join_witness :
  basename (py "/srv/data/docs" ++ slash :: py "policy.pdf") = py "policy.pdf".
Proof.
  apply (basename_join (py "/srv/data/docs") (py "policy.pdf")).
  vm_compute. intros H. repeat (apply elem_of_cons in H as [H | H]; [discriminate H|]).
  apply elem_of_nil in H. exact H.
Defined.

(** X6: [basename] is idempotent: a name it returns has no directory part
    left to strip. *)
Theorem basename_idempotent (p : str) : basename (basename p) = basename p.
Proof. apply basename_no_slash. apply (proj1 (basename_spec p)). Qed.

(** X7: [basename] returns the empty string exactly for the empty path and
    for a path that ends with ['/'], so a chunk whose [source] is a
    directory path is reported with an empty name. *)
Theorem basename_empty_iff (p : str) :
  basename p = [] <-> (p = [] \/ last p = Some slash).
Proof.
  split.
  - intros Hb. destruct (basename_spec p) as (_ & dir & Hp & Hdir).
    rewrite Hb, app_nil_r in Hp. subst dir. exact Hdir.
  - intros [-> | Hlast]; [reflexivity|].
    apply last_Some in Hlast as (dir & ->).
    apply (basename_after_slash dir []). apply not_elem_of_nil.
Qed.

(** ** More on the handlers *)

(** X8: the loop that builds [sources] works chunk by chunk: the entries of
    a concatenation are the entries of its parts, in the same order, and the
    loop raises on the concatenation when it raises on a part. *)
Theorem collect_sources_app (docs1 docs2 : list Document) :
  collect_sources (docs1 ++ docs2) =
  match collect_sources docs1 with
  | Return entries1 =>
      match collect_sources docs2 with
      | Return entries2 => Return (entries1 ++ entries2)
      | Raise e => Raise e
      end
  | Raise e => Raise e
  end.
Proof.
  rewrite !collect_sources_spec, forallb_app, map_app.
  destruct (forallb str_source docs1), (forallb str_source docs2); reflexivity.
Qed.

(** X9: only the [source] metadata of a chunk reaches the response: two
    lists of chunks that agree, position by position, on that one key give
    the same [sources], whatever their text and their other metadata. *)
Theorem collect_sources_only_source (docs1 docs2 : list Document) :
  Forall2 (fun d1 d2 => metadata d1 !! "source" = metadata d2 !! "source") docs1 docs2 ->
  collect_sources docs1 = collect_sources docs2.
Proof.
  intros H. rewrite !collect_sources_spec.
  assert (Heq : forallb str_source docs1 = forallb str_source docs2
                /\ map source_entry docs1 = map source_entry docs2).
  { induction H as [|d1 d2 docs1 docs2 Hd _ [IHb IHm]]; simpl; [split; reflexivity|].
    unfold str_source at 1 3, source_entry at 1 3, source_path.
    rewrite Hd, IHb, IHm. split; reflexivity. }
  destruct Heq as [-> ->]. reflexivity.
Qed.

Lemma collect_sources_only_source_witness :
  collect_sources [Mock.policy_chunk]
  = collect_sources
      [ {| page_content := [];
           metadata := {[ "source" := VStr (py "/docs/policy.pdf"); "page" := VInt 3 ]} |} ].
Proof.
  apply collect_sources_only_source.
  constructor; [vm_compute; reflexivity | constructor].
Defined.

Lemma chat_endpoint_state {World} (chain : str -> SE (App World) ChainResult)
    (request : ChatRequest) (app : App World) :
  snd (chat_endpoint chain request app) = snd (chain (strip (query request)) app).
Proof.
  rewrite chat_endpoint_run.
  destruct (chain (strip (query request)) app) as [[response | e] app']; [|reflexivity].
  destruct (collect_sources (default [] (res_source_documents response))); reflexivity.
Qed.



(** What a route does to the buffer: it empties it, or leaves it alone, or
    leaves what the chain call left. *)
Lemma dispatch_messages {World} (chain : str -> SE (App World) ChainResult)
    (route : Route) (app : App World) :
  messages (snd (dispatch chain route app)) = []
  \/ messages (snd (dispatch chain route app)) = messages app
  \/ exists q, messages (snd (dispatch chain route app)) = messages (snd (chain q app)).
Proof.
  destruct route as [request | |]; simpl.
  - right. right. exists (strip (query request)).
    rewrite <- chat_endpoint_state. unfold mbind, SE_bind.
    destruct (chat_endpoint chain request app) as [[resp | e] app']; reflexivity.
  - left. reflexivity.
  - right. left. reflexivity.
Qed.

Lemma serve_cons {S Req Resp} (handler : Req -> SE S Resp) (r : Req) (reqs : list Req)
    (s : S) :
  snd (serve handler (r :: reqs) s) = snd (serve handler reqs (snd (handler r s))).
Proof.
  simpl. destruct (handler r s) as [o s1]. simpl.
  destruct (serve handler reqs s1) as [os s2]. reflexivity.
Qed.

(** X12: the routes touch the conversation buffer only by clearing it or
    through the chain: a property of the buffer that holds of the empty
    buffer and that every chain call keeps is kept along any run of requests
    to the three routes. *)
Theorem routes_keep_invariant {World} (chain : str -> SE (App World) ChainResult)
    (P : list Message -> Prop) :
  P [] ->
  (forall q app, P (messages app) -> P (messages (snd (chain q app)))) ->
  forall routes app,
    P (messages app) -> P (messages (snd (serve (dispatch chain) routes app))).
Proof.
  intros Hnil Hchain routes.
  induction routes as [|route routes IH]; intros app Happ; [exact Happ|].
  rewrite serve_cons. apply IH.
  destruct (dispatch_messages chain route app) as [-> | [-> | (q & ->)]]; auto.
Qed.

Lemma routes_keep_invariant_witness :
  messages (snd (serve (dispatch Mock.echo_chain)
                   [POST_chat Mock.refund_request; GET_root; POST_chat Mock.hours_request]
                   Mock.app0)) = [].
Proof.
  apply (routes_keep_invariant Mock.echo_chain (fun msgs => msgs = [])).
  - reflexivity.
  - intros q app Happ. simpl. exact Happ.
  - reflexivity.
Defined.

(** ** More on the endpoint over the retrieval chain *)

Lemma paired_app (l1 l2 : list Message) :
  paired l1 = true -> paired l2 = true -> paired (l1 ++ l2) = true.
Proof.
  remember (length l1) as n eqn:Hn. revert l1 Hn.
  induction n as [n IH] using lt_wf_ind. intros l1 Hn H1 H2.
  destruct l1 as [|a [|b rest]]; simpl in *; [exact H2 | discriminate H1 |].
  apply andb_true_iff in H1 as [Hab Hrest]. rewrite Hab. simpl.
  apply (IH (length rest)); [lia | reflexivity | exact Hrest | exact H2].
Qed.

Lemma paired_even (msgs : list Message) :
  paired msgs = true -> Nat.even (length msgs) = true.
Proof.
  remember (length msgs) as n eqn:Hn. revert msgs Hn.
  induction n as [n IH] using lt_wf_ind. intros msgs Hn H.
  destruct msgs as [|a [|b rest]]; simpl in *; subst n; [reflexivity | discriminate H |].
  apply andb_true_iff in H as [_ Hrest]. simpl.
  apply (IH (length rest) ltac:(lia) rest eq_refl Hrest).
Qed.

Section ChainRuns.
Context {World Vector : Type}.
Variable embed_query : str -> SE World Vector.
Variable similarity_search : Vector -> SE World (list Document).
Variable generate : str -> list Document -> list Message -> SE World str.

Local Abbreviation chain_ := (ConversationalRetrievalChain_invoke embed_query similarity_search generate).
Local Abbreviation chat_ := (chat embed_query similarity_search generate).

(** X13: right after [reset_memory], a successful [POST /chat] returns a
    history of exactly two records, the user record of the trimmed query and
    the bot record of the answer, whatever the buffer held before the
    reset. *)
Theorem chat_after_reset (request : ChatRequest) (app app' : App World)
    (resp : ChatResponse) :
  chat_ request (snd (reset_memory app)) = (Return resp, app') ->
  chat_history resp
  = [ {[ "user" := strip (query request) ]}; {[ "bot" := answer resp ]} ]
  /\ length (chat_history resp) = 2%nat.
Proof.
  intros Hrun.
  destruct (chat_Return _ _ _ _ _ _ _ Hrun) as (Hm & _ & Hh).
  rewrite Hh, Hm. simpl. split; reflexivity.
Qed.

Lemma chain_paired (q : str) (app : App World) :
  paired (messages app) = true -> paired (messages (snd (chain_ q app))) = true.
Proof.
  intros Hp. rewrite invoke_run.
  destruct (pipeline embed_query similarity_search generate q (messages app) (world app))
    as [[[text chunks] | e] w]; simpl; [|exact Hp].
  apply paired_app; [exact Hp | reflexivity].
Qed.

(** X15: the buffer never holds a partial round.  Along any run of requests
    to the three routes, from a buffer made of whole rounds (the empty one
    at startup in particular), the buffer stays a sequence of rounds, a
    human message followed by an AI message, and so has even length. *)
Theorem routes_keep_rounds (routes : list Route) (app : App World) :
  paired (messages app) = true ->
  paired (messages (snd (serve (dispatch chain_) routes app))) = true
  /\ Nat.even (length (messages (snd (serve (dispatch chain_) routes app)))) = true.
Proof.
  intros Hp.
  assert (H : paired (messages (snd (serve (dispatch chain_) routes app))) = true).
  { revert app Hp. induction routes as [|route routes IH]; intros app Hp; [exact Hp|].
    rewrite serve_cons. apply IH.
    destruct (dispatch_messages chain_ route app) as [-> | [-> | (q & ->)]];
      [reflexivity | exact Hp | apply chain_paired, Hp]. }
  split; [exact H | apply paired_even, H].
Qed.

End ChainRuns.

Lemma chat_after_reset_witness :
  exists resp app',
    Mock.chat_ok Mock.hours_request
      (snd (reset_memory (snd (Mock.chat_ok Mock.refund_request Mock.app0))))
    = (Return resp, app')
    /\ length (chat_history resp) = 2%nat.
Proof.
  destruct (Mock.chat_ok Mock.hours_request
              (snd (reset_memory (snd (Mock.chat_ok Mock.refund_request Mock.app0)))))
    as [r app'] eqn:Hrun.
  assert (Hok : is_Return r = true).
  { replace r with
      (fst (Mock.chat_ok Mock.hours_request
              (snd (reset_memory (snd (Mock.chat_ok Mock.refund_request Mock.app0))))))
      by (rewrite Hrun; reflexivity).
    vm_compute. reflexivity. }
  destruct r as [resp | e]; [|discriminate Hok].
  exists resp, app'. split; [reflexivity|].
  exact (proj2 (chat_after_reset _ _ _ _ _ _ _ Hrun)).
Defined.

Lemma routes_keep_rounds_witness :
  Nat.even (length (messages (snd (serve
    (dispatch (ConversationalRetrievalChain_invoke
                 Mock.embed_query Mock.similarity_search Mock.generate))
    [POST_chat Mock.refund_request; GET_reset_memory; POST_chat Mock.hours_request; GET_root]
    Mock.app0)))) = true.
Proof.
  apply (routes_keep_rounds Mock.embed_query Mock.similarity_search Mock.generate).
  reflexivity.
Defined.

(** A run in which the language model is down for the second request. *)
Example failed_request_leaves_no_record :
  map render (messages (snd (Mock.chat_down Mock.hours_request
                               (snd (Mock.chat_ok Mock.refund_request Mock.app0)))))
  = [ {[ "user" := py "What is the refund policy?" ]};
      {[ "bot" := py "Refunds are processed within 30 days." ]} ].
Proof. vm_compute. reflexivity. Qed.
